(** * ProFieldManager: the native bridge [native-lib.cpp]

    A verification development for the single JNI entry point of
    [ProFieldManagerAndroid/app/src/main/cpp/native-lib.cpp]:

      std::string hello = "Pro Field Manager Native Library - 16KB Page Aligned";
      LOGI("Native library loaded successfully with 16KB page alignment");
      return env->NewStringUTF(hello.c_str());

    The function talks to two hosts: the Android log ([__android_log_print]
    behind the [LOGI] macro) and the Java runtime (the [NewStringUTF] slot of
    the [JNIEnv] function table it is handed).  The log is modelled as the
    sequence of entries written; the Java runtime is a parameter, exactly as
    it is a parameter of the C++ function.

    Scope of the model.  Values are modelled, not memory: constructing the
    [std::string] yields its characters (the C++ heap and [std::bad_alloc]
    are outside the model), and both host calls return to their caller.
    [NewStringUTF] may answer [NULL], as the JNI documents for a string
    that cannot be constructed. *)

From Stdlib Require Import Strings.String Strings.Ascii Lists.List.
From Stdlib Require Import NArith.NArith ZArith.ZArith Arith.PeanoNat Bool.Bool.
From Stdlib Require Import Numbers.DecimalString micromega.Lia.
Import ListNotations.

Local Open Scope string_scope.
Local Open Scope list_scope.

(** ** C strings

    A [const char*] is modelled by the characters stored from the pointer
    onwards.  Reading a C string stops at the first NUL; a buffer without a
    terminator has no defined reading. *)
Module CStr.

Definition NUL : ascii := Ascii.zero.

(** The array a string literal denotes: its characters and a terminator. *)
Definition literal (s : string) : string := (s ++ String NUL EmptyString)%string.

(** The characters before the first NUL ([None]: no terminator). *)
Fixpoint read (buf : string) : option string :=
  match buf with
  | EmptyString => None
  | String c rest =>
      if Ascii.eqb c NUL then Some EmptyString
      else option_map (String c) (read rest)
  end.

(** The [std::string] constructor from a C string: copies the characters
    before the NUL. *)
Definition std_string (p : string) : option string := read p.

(** [std::string::c_str()]: the contents followed by a terminator. *)
Definition c_str (s : string) : string := (s ++ String NUL EmptyString)%string.

(** Seven-bit characters other than NUL: on these UTF-8, the JNI's
    modified UTF-8 and ASCII coincide, one byte per character. *)
Definition plain_char (c : ascii) : bool :=
  let n := N_of_ascii c in (0 <? n)%N && (n <? 128)%N.

Fixpoint plain (s : string) : bool :=
  match s with
  | EmptyString => true
  | String c rest => plain_char c && plain rest
  end.

End CStr.

(** ** The Android log ([android/log.h]) *)
Module AndroidLog.

Inductive android_LogPriority : Set :=
| ANDROID_LOG_UNKNOWN | ANDROID_LOG_DEFAULT | ANDROID_LOG_VERBOSE
| ANDROID_LOG_DEBUG | ANDROID_LOG_INFO | ANDROID_LOG_WARN
| ANDROID_LOG_ERROR | ANDROID_LOG_FATAL | ANDROID_LOG_SILENT.

Record LogEntry : Set := mkLogEntry
  { prio : android_LogPriority; tag : string; text : string }.

(** Arguments passed through the ellipsis of a printf-style call. *)
Inductive vararg : Set :=
| VaInt (z : Z)
| VaStr (s : string).

(** printf-style rendering of a format passed as a C string: reading stops
    at a NUL, [%%] renders as [%], [%s] takes a string argument and [%d] an
    [int] (32 bits).  A directive whose argument is missing or of the wrong
    kind has no rendering ([None]).  The other directives of printf are
    outside this model and have no rendering here either: [None] says
    nothing about what the code does with them. *)
Fixpoint vformat (fmt : string) (args : list vararg) : option string :=
  match fmt with
  | EmptyString => Some EmptyString
  | String "000" _ => Some EmptyString
  | String "%" (String "%" rest) =>
      option_map (String "%"%char) (vformat rest args)
  | String "%" (String "s" rest) =>
      match args with
      | VaStr s :: args' => option_map (append s) (vformat rest args')
      | _ => None
      end
  | String "%" (String "d" rest) =>
      match args with
      | VaInt z :: args' =>
          if ((-2147483648 <=? z) && (z <=? 2147483647))%Z
          then option_map (append (NilZero.string_of_int (Z.to_int z)))
                          (vformat rest args')
          else None
      | _ => None
      end
  | String "%" _ => None
  | String c rest => option_map (String c) (vformat rest args)
  end.

(** liblog renders into a buffer of [LOG_BUF_SIZE] bytes, terminator
    included. *)
Definition LOG_BUF_SIZE : nat := 1024.

(** The entry liblog writes for [__android_log_print(prio, tag, fmt, ...)]:
    the rendering of [fmt], cut to what fits the buffer.  [None] when the
    format has no rendering. *)
Definition entry_of (p : android_LogPriority) (t fmt : string)
           (args : list vararg) : option LogEntry :=
  match vformat fmt args with
  | Some m => Some (mkLogEntry p t (substring 0 (LOG_BUF_SIZE - 1) m))
  | None => None
  end.

End AndroidLog.

(** ** The Java Native Interface ([jni.h]) *)
Module JNI.

(** Object references are opaque handles; [NULL] is the null reference. *)
Definition jobject : Set := N.
Definition jstring : Set := jobject.
Definition NULL : jobject := 0%N.

(** The function table behind a [JNIEnv*], over the runtime's state [J]:
    the slot the bridge calls, and the slot through which the text of a
    Java string is read back. *)
Record JNIEnv (J : Type) : Type := mkJNIEnv
  { NewStringUTF : string -> J -> jstring * J;
    GetStringUTFChars : jstring -> J -> option string }.

Arguments NewStringUTF {J} _ _ _.
Arguments GetStringUTFChars {J} _ _ _.

(** What the JNI specification promises of [NewStringUTF] on plain text:
    a result that is not [NULL] refers, when the call returns, to a string
    that reads back as the characters handed in.  ([NULL] is the
    documented result when the string cannot be constructed.) *)
Definition conforms {J : Type} (env : JNIEnv J) : Prop :=
  forall (buf s : string) (j j' : J) (r : jstring),
    CStr.read buf = Some s -> CStr.plain s = true ->
    NewStringUTF env buf j = (r, j') -> r <> NULL ->
    GetStringUTFChars env r j' = Some s.

End JNI.

Import AndroidLog JNI.

(** ** The native library *)
Section Bridge.

(** [J]: the state of the Java runtime.  [G]: whatever else the process
    holds in static storage (the library itself declares none). *)
Variables J G : Type.

Record World : Type := mkWorld
  { logcat : list LogEntry; jvm : J; statics : G }.

(** Native code runs against the world and either returns or has no
    outcome in this model. *)
Definition M (A : Type) : Type := World -> option (A * World).

Definition ret {A : Type} (a : A) : M A := fun w => Some (a, w).

Definition bind {A B : Type} (m : M A) (k : A -> M B) : M B :=
  fun w => match m w with
           | Some (a, w') => k a w'
           | None => None
           end.

Definition lift {A : Type} (o : option A) : M A :=
  fun w => match o with
           | Some a => Some (a, w)
           | None => None
           end.

Notation "x <- m ;; k" := (bind m (fun x => k))
  (at level 61, m at next level, right associativity).
Notation "m ;; k" := (bind m (fun _ => k))
  (at level 61, right associativity).

(** The two host calls, as actions on the world.  [__android_log_print]
    appends its entry to the log (the [int] it returns is dropped by the
    only caller); [NewStringUTF] is looked up in the function table. *)
Definition __android_log_print (p : android_LogPriority) (t fmt : string)
           (args : list vararg) : M unit :=
  fun w => match entry_of p t fmt args with
           | Some e => Some (tt, mkWorld (logcat w ++ [e]) (jvm w) (statics w))
           | None => None
           end.

Definition env_NewStringUTF (env : JNIEnv J) (bytes : string) : M jstring :=
  fun w => let (r, j) := NewStringUTF env bytes (jvm w) in
           Some (r, mkWorld (logcat w) j (statics w)).

(** [#define LOG_TAG "ProFieldManager"] *)
Definition LOG_TAG : string := "ProFieldManager".

(** [#define LOGI(...) __android_log_print(ANDROID_LOG_INFO, LOG_TAG, __VA_ARGS__)] *)
Definition LOGI (fmt : string) (args : list vararg) : M unit :=
  __android_log_print ANDROID_LOG_INFO LOG_TAG fmt args.

(** The three statements of the body, by source line. *)
Definition line12 : M string :=
  lift (CStr.std_string
          (CStr.literal "Pro Field Manager Native Library - 16KB Page Aligned")).

Definition line13 : M unit :=
  LOGI "Native library loaded successfully with 16KB page alignment" [].

Definition line14 (env : JNIEnv J) (hello : string) : M jstring :=
  env_NewStringUTF env (CStr.c_str hello).

(** [extern "C" JNIEXPORT jstring JNICALL
     Java_com_profieldmanager_MainActivity_stringFromJNI(JNIEnv* env, jobject)] *)
Definition Java_com_profieldmanager_MainActivity_stringFromJNI
           (env : JNIEnv J) (this : jobject) : M jstring :=
  hello <- line12 ;;
  line13 ;;
  line14 env hello.

(** *** The body as a machine over program points

    One step executes one statement.  A frame holds the parameters, the
    local [hello] once it is constructed, and the value being returned. *)
Inductive point : Set := Line12 | Line13 | Line14 | Returned.

Record frame : Type := mkFrame
  { at_point : point;
    arg_env : JNIEnv J;
    arg_this : jobject;
    hello : option string;
    retval : option jstring }.

Definition config : Type := (frame * World)%type.

Definition enter (env : JNIEnv J) (this : jobject) (w : World) : config :=
  (mkFrame Line12 env this None None, w).

Definition step (c : config) : option config :=
  let (f, w) := c in
  match at_point f with
  | Line12 =>
      match line12 w with
      | Some (h, w') =>
          Some (mkFrame Line13 (arg_env f) (arg_this f) (Some h) (retval f), w')
      | None => None
      end
  | Line13 =>
      match line13 w with
      | Some (_, w') =>
          Some (mkFrame Line14 (arg_env f) (arg_this f) (hello f) (retval f), w')
      | None => None
      end
  | Line14 =>
      match hello f with
      | Some h =>
          match line14 (arg_env f) h w with
          | Some (r, w') =>
              Some (mkFrame Returned (arg_env f) (arg_this f) (hello f) (Some r), w')
          | None => None
          end
      | None => None
      end
  | Returned => None
  end.

(** [steps n c]: the configurations visited in at most [n] steps from [c],
    [c] first; the walk stops where no step is possible. *)
Fixpoint steps (n : nat) (c : config) : list config :=
  match n with
  | O => [c]
  | S n' => match step c with
            | Some c' => c :: steps n' c'
            | None => [c]
            end
  end.

(** The outcome a finished frame reports. *)
Definition outcome (c : config) : option (jstring * World) :=
  match at_point (fst c), retval (fst c) with
  | Returned, Some r => Some (r, snd c)
  | _, _ => None
  end.

(** *** Repeated invocation

    [later_call env this n]: [n] calls whose results are dropped, then one
    more; its value and the world it leaves are those of call [n + 1]. *)
Fixpoint later_call (env : JNIEnv J) (this : jobject) (n : nat) : M jstring :=
  match n with
  | O => Java_com_profieldmanager_MainActivity_stringFromJNI env this
  | S n' =>
      Java_com_profieldmanager_MainActivity_stringFromJNI env this ;;
      later_call env this n'
  end.

End Bridge.

Arguments mkWorld {J G} _ _ _.
Arguments logcat {J G} _.
Arguments jvm {J G} _.
Arguments statics {J G} _.
Arguments Java_com_profieldmanager_MainActivity_stringFromJNI {J G} env this w.
Arguments line12 {J G} w.
Arguments line13 {J G} w.
Arguments line14 {J G} env hello w.
Arguments enter {J G} env this w.
Arguments step {J G} c.
Arguments steps {J G} n c.
Arguments outcome {J G} c.
Arguments later_call {J G} env this n w.
Arguments mkFrame {J} _ _ _ _ _.
Arguments at_point {J} f.
Arguments arg_env {J} f.
Arguments arg_this {J} f.
Arguments hello {J} f.
Arguments retval {J} f.

Abbreviation stringFromJNI := Java_com_profieldmanager_MainActivity_stringFromJNI.

(** The text a call hands back: what the returned reference reads as in the
    runtime state the call leaves ([None] for [NULL], which refers to no
    string, and for a call without a defined outcome). *)
Definition returned_text {J G : Type} (env : JNIEnv J)
           (o : option (jstring * World J G)) : option string :=
  match o with
  | Some (r, w') =>
      if N.eqb r NULL then None else GetStringUTFChars env r (jvm w')
  | None => None
  end.

(** ** The exported declaration and the JNI naming convention *)
Module Binding.

Inductive ctype : Set :=
| T_JNIEnv_ptr | T_jobject | T_jclass | T_jstring | T_jint | T_jboolean | T_void.

(** A function declaration as the linker and the runtime see it. *)
Record declaration : Set := mkDeclaration
  { extern_C : bool;        (* no C++ name mangling *)
    jni_export : bool;      (* JNIEXPORT: visible in the shared object *)
    result : ctype;
    symbol : string;
    params : list ctype }.

(** Lines 8 to 11 of [native-lib.cpp]. *)
Definition native_lib_export : declaration :=
  {| extern_C := true;
     jni_export := true;
     result := T_jstring;
     symbol := "Java_com_profieldmanager_MainActivity_stringFromJNI";
     params := [T_JNIEnv_ptr; T_jobject] |}.

(** The Java side of a native method. *)
Inductive jtype : Set := J_String | J_Object | J_int | J_boolean | J_void.

Record native_method : Set := mkNativeMethod
  { class_name : string;      (* fully qualified, dot separated *)
    method_name : string;
    is_static : bool;
    arguments : list jtype;
    returns : jtype }.

Definition ctype_of (t : jtype) : ctype :=
  match t with
  | J_String => T_jstring
  | J_Object => T_jobject
  | J_int => T_jint
  | J_boolean => T_jboolean
  | J_void => T_void
  end.

Definition hex_digit (n : N) : ascii :=
  if (n <? 10)%N then ascii_of_N (48 + n) else ascii_of_N (87 + n).

(** [_0xxxx]: the escape of a character by its code, four hex digits. *)
Definition escape_code (n : N) : string :=
  String "_" (String "0"
    (String (hex_digit (n / 4096 mod 16))
    (String (hex_digit (n / 256 mod 16))
    (String (hex_digit (n / 16 mod 16))
    (String (hex_digit (n mod 16)) EmptyString))))).

Definition alphanumeric (c : ascii) : bool :=
  let n := N_of_ascii c in
  ((48 <=? n) && (n <=? 57) || (65 <=? n) && (n <=? 90)
   || (97 <=? n) && (n <=? 122))%N.

(** Name mangling of the JNI specification: the separator becomes [_],
    and [_], [;] and [[] are escaped as [_1], [_2] and [_3]; any other
    character that is not an ASCII letter or digit is escaped by code.
    Names are taken in ASCII: a byte above 127 is part of a character
    whose code this model does not compute ([None]). *)
Definition mangle_char (c : ascii) : option string :=
  if alphanumeric c then Some (String c EmptyString)
  else if (Ascii.eqb c "." || Ascii.eqb c "/")%bool then Some "_"
  else if Ascii.eqb c "_" then Some "_1"
  else if Ascii.eqb c ";" then Some "_2"
  else if Ascii.eqb c "[" then Some "_3"
  else if (N_of_ascii c <? 128)%N then Some (escape_code (N_of_ascii c))
  else None.

Fixpoint mangle (s : string) : option string :=
  match s with
  | EmptyString => Some EmptyString
  | String c rest =>
      match mangle_char c, mangle rest with
      | Some m, Some ms => Some (m ++ ms)%string
      | _, _ => None
      end
  end.

(** The declaration under which the runtime binds a native method: the
    symbol [Java_<class>_<method>], the environment handle, the instance
    (or the class, for a static method), then the method's arguments. *)
Definition binding (m : native_method) : option declaration :=
  match mangle (class_name m), mangle (method_name m) with
  | Some c, Some f =>
      Some {| extern_C := true;
              jni_export := true;
              result := ctype_of (returns m);
              symbol := ("Java_" ++ c ++ "_" ++ f)%string;
              params := T_JNIEnv_ptr
                        :: (if is_static m then T_jclass else T_jobject)
                        :: map ctype_of (arguments m) |}
  | _, _ => None
  end.

(** Modelled from the spec: the Java declaration of the native method is
    not among the sources.  The method is [stringFromJNI] of the class
    [com.profieldmanager.MainActivity], called on an instance, taking no
    argument and returning one text value. *)
Definition MainActivity_stringFromJNI : native_method :=
  {| class_name := "com.profieldmanager.MainActivity";
     method_name := "stringFromJNI";
     is_static := false;
     arguments := [];
     returns := J_String |}.

End Binding.

(** ** A reference runtime

    A Java runtime with a string table of bounded size, used to run the
    bridge on concrete worlds.  [NewStringUTF] stores the characters it reads
    and hands out the next handle; when the table is full it returns [NULL]
    and leaves an [OutOfMemoryError] pending. *)
Module RefJVM.

Record state : Set := mkState
  { table : list string;
    room : nat;
    pending_OutOfMemoryError : bool }.

Definition new_string_utf (bytes : string) (j : state) : jstring * state :=
  match CStr.read bytes with
  | Some s =>
      if Nat.ltb (List.length (table j)) (room j)
      then (N.of_nat (S (List.length (table j))),
            mkState (table j ++ [s])%list (room j) (pending_OutOfMemoryError j))
      else (NULL, mkState (table j) (room j) true)
  | None => (NULL, j)
  end.

Definition get_string_utf_chars (r : jstring) (j : state) : option string :=
  if N.eqb r NULL then None else nth_error (table j) (pred (N.to_nat r)).

Definition env : JNIEnv state :=
  mkJNIEnv state new_string_utf get_string_utf_chars.

(** An empty runtime with room for [n] strings, an empty log, and one
    word of static storage elsewhere in the process. *)
Definition boot (n : nat) : World state Z :=
  mkWorld [] (mkState [] n false) 7%Z.

(** A runtime whose one slot is already taken. *)
Definition full : World state Z :=
  mkWorld [] (mkState ["earlier"] 1 false) 7%Z.

End RefJVM.

(** ** Values the statements compare the code against *)

Definition hello_text : string :=
  "Pro Field Manager Native Library - 16KB Page Aligned".

Definition load_entry : LogEntry :=
  mkLogEntry ANDROID_LOG_INFO "ProFieldManager"
             "Native library loaded successfully with 16KB page alignment".

(** Formats without a directive. *)
Fixpoint percent_free (fmt : string) : bool :=
  match fmt with
  | EmptyString => true
  | String c rest => negb (Ascii.eqb c "%") && percent_free rest
  end.

(** The successor of a program point in the text of the body. *)
Definition successor (p : point) : option point :=
  match p with
  | Line12 => Some Line13
  | Line13 => Some Line14
  | Line14 => Some Returned
  | Returned => None
  end.

(** The configurations expected after each statement of a call entered
    with [env] and [this] in the world [w]. *)
Section Expected.

Variables J G : Type.
Variables (env : JNIEnv J) (this : jobject) (w : World J G).

Definition after12 : config J G :=
  (mkFrame Line13 env this (Some hello_text) None, w).

Definition after13 : config J G :=
  (mkFrame Line14 env this (Some hello_text) None,
   mkWorld (logcat w ++ [load_entry]) (jvm w) (statics w)).

Definition after14 : config J G :=
  (mkFrame Returned env this (Some hello_text)
           (Some (fst (NewStringUTF env (CStr.c_str hello_text) (jvm w)))),
   mkWorld (logcat w ++ [load_entry])
           (snd (NewStringUTF env (CStr.c_str hello_text) (jvm w)))
           (statics w)).

End Expected.

Arguments after12 {J G} env this w.
Arguments after13 {J G} env this w.
Arguments after14 {J G} env this w.

(** The number of statements between a program point and the return. *)
Definition distance (p : point) : nat :=
  match p with
  | Line12 => 3
  | Line13 => 2
  | Line14 => 1
  | Returned => 0
  end.

(** Frames the body can be in: past line 12 the local [hello] exists, and
    a returned frame holds the value it returns. *)
Definition well_formed {J G : Type} (c : config J G) : bool :=
  match at_point (fst c) with
  | Line12 => true
  | Line13 | Line14 =>
      match hello (fst c) with Some _ => true | None => false end
  | Returned =>
      match retval (fst c) with Some _ => true | None => false end
  end.

(** Strings a C reader takes in whole: no NUL inside. *)
Fixpoint nul_free (s : string) : bool :=
  match s with
  | EmptyString => true
  | String c rest => negb (Ascii.eqb c CStr.NUL) && nul_free rest
  end.

(** The runtime after one more [NewStringUTF] call on the text, and the
    answer [NewStringUTF] gives for the text once [n] such calls have been
    made from the runtime state [j]. *)
Definition next_runtime {J : Type} (env : JNIEnv J) (j : J) : J :=
  snd (NewStringUTF env (CStr.c_str hello_text) j).

Definition answer_after {J : Type} (env : JNIEnv J) (n : nat) (j : J) : jstring :=
  fst (NewStringUTF env (CStr.c_str hello_text) (Nat.iter n (next_runtime env) j)).

(** *** Concurrent calls

    Each thread that calls the function has a frame of its own; all share
    one world.  A schedule names, turn by turn, the thread that executes its
    next statement; a turn given to a thread that has returned, or to no
    thread at all, changes nothing.  A statement, host call included, is
    executed in one piece. *)
Definition pool (J G : Type) : Type := (list (frame J) * World J G)%type.

Fixpoint set_nth {A : Type} (i : nat) (x : A) (l : list A) : list A :=
  match l, i with
  | [], _ => []
  | _ :: t, O => x :: t
  | h :: t, S i' => h :: set_nth i' x t
  end.

(** One call per handle, all about to start in the world [w]. *)
Definition spawn {J G : Type} (env : JNIEnv J) (handles : list jobject)
           (w : World J G) : pool J G :=
  (map (fun this => fst (enter env this w)) handles, w).

Definition turn {J G : Type} (i : nat) (p : pool J G) : pool J G :=
  match nth_error (fst p) i with
  | Some f =>
      match step (f, snd p) with
      | Some (f', w') => (set_nth i f' (fst p), w')
      | None => p
      end
  | None => p
  end.

Fixpoint interleave {J G : Type} (schedule : list nat) (p : pool J G) : pool J G :=
  match schedule with
  | [] => p
  | i :: rest => interleave rest (turn i p)
  end.

(** Threads that have returned, and threads past line 13. *)
Definition returned {J : Type} (f : frame J) : bool :=
  match at_point f with
  | Returned => true
  | _ => false
  end.

Definition logged {J : Type} (f : frame J) : bool :=
  match at_point f with
  | Line14 | Returned => true
  | _ => false
  end.

Definition count {A : Type} (P : A -> bool) (l : list A) : nat :=
  length (filter P l).

(** The text thread [i] has been handed, read in the runtime state of the
    pool ([None] before it returns, and for [NULL]). *)
Definition thread_text {J G : Type} (env : JNIEnv J) (p : pool J G) (i : nat)
  : option string :=
  match nth_error (fst p) i with
  | Some f =>
      match retval f with
      | Some r =>
          if N.eqb r NULL then None else GetStringUTFChars env r (jvm (snd p))
      | None => None
      end
  | None => None
  end.

(** What holds of every frame of a pool in which [k] threads have returned,
    and of the pool as a whole, relative to the world [w] the calls started
    in. *)
Definition frame_ok {J : Type} (env : JNIEnv J) (j0 : J) (k : nat)
           (f : frame J) : Prop :=
  arg_env f = env
  /\ match at_point f with
     | Line12 => True
     | Line13 | Line14 => hello f = Some hello_text
     | Returned =>
         exists j, j < k /\ retval f = Some (answer_after env j j0)
     end.

Definition pool_ok {J G : Type} (env : JNIEnv J) (w : World J G)
           (p : pool J G) : Prop :=
  statics (snd p) = statics w
  /\ jvm (snd p) = Nat.iter (count returned (fst p)) (next_runtime env) (jvm w)
  /\ logcat (snd p) = logcat w ++ repeat load_entry (count logged (fst p))
  /\ Forall (frame_ok env (jvm w) (count returned (fst p))) (fst p).

(** ** Properties *)

(** *** C strings and formats *)

Lemma plain_char_not_NUL (c : ascii) :
  CStr.plain_char c = true -> Ascii.eqb c CStr.NUL = false.
Proof.
  unfold CStr.plain_char. intros H.
  apply andb_prop in H. destruct H as [Hpos _].
  apply N.ltb_lt in Hpos.
  apply Ascii.eqb_neq. intros ->.
  unfold CStr.NUL in Hpos. simpl in Hpos. lia.
Qed.

(** [c_str] followed by a C read gives the string back when it holds no
    NUL; in particular on plain text. *)
Lemma read_c_str (s : string) :
  CStr.plain s = true -> CStr.read (CStr.c_str s) = Some s.
Proof.
  induction s as [|c s IH]; simpl; intros H.
  - reflexivity.
  - apply andb_prop in H. destruct H as [Hc Hs].
    rewrite (plain_char_not_NUL c Hc).
    unfold CStr.c_str in IH. rewrite (IH Hs). reflexivity.
Qed.

Lemma substring_whole (s : string) (n : nat) :
  String.length s <= n -> substring 0 n s = s.
Proof.
  revert n. induction s as [|c s IH]; intros n H.
  - destruct n; reflexivity.
  - destruct n as [|n]; simpl in H; [lia|].
    simpl. rewrite IH by lia. reflexivity.
Qed.

(** A format without [%] and without NUL renders as itself, whatever the
    arguments. *)
Lemma vformat_percent_free (fmt : string) (args : list vararg) :
  percent_free fmt = true -> nul_free fmt = true ->
  vformat fmt args = Some fmt.
Proof.
  induction fmt as [|c fmt IH]; intros H N.
  - reflexivity.
  - simpl in H, N.
    apply andb_prop in H. destruct H as [Hc Hrest].
    apply andb_prop in N. destruct N as [Nc Nrest].
    specialize (IH Hrest Nrest).
    apply negb_true_iff in Hc. apply negb_true_iff in Nc.
    assert (E : vformat (String c fmt) args
                = option_map (String c) (vformat fmt args)).
    { destruct c as [[] [] [] [] [] [] [] []];
        try reflexivity; try discriminate Hc; discriminate Nc. }
    rewrite E, IH. reflexivity.
Qed.

Lemma entry_of_plain (p : android_LogPriority) (t fmt : string)
      (args : list vararg) :
  percent_free fmt = true -> nul_free fmt = true ->
  String.length fmt < LOG_BUF_SIZE ->
  entry_of p t fmt args = Some (mkLogEntry p t fmt).
Proof.
  intros Hfree Hnul Hlen. unfold entry_of.
  rewrite (vformat_percent_free fmt args Hfree Hnul).
  rewrite substring_whole by lia. reflexivity.
Qed.

(** *** What one call does *)
Section OneCall.

Variables J G : Type.
Variable env : JNIEnv J.

Implicit Types (w : World J G) (this : jobject).

Lemma line12_runs w : line12 w = Some (hello_text, w).
Proof.
  unfold line12, lift, CStr.std_string.
  change (CStr.literal _) with (CStr.c_str hello_text).
  rewrite (read_c_str hello_text) by reflexivity. reflexivity.
Qed.

Lemma line13_runs w :
  line13 w = Some (tt, mkWorld (logcat w ++ [load_entry]) (jvm w) (statics w)).
Proof.
  unfold line13, LOGI, __android_log_print, LOG_TAG.
  rewrite entry_of_plain.
  - reflexivity.
  - reflexivity.
  - reflexivity.
  - unfold LOG_BUF_SIZE. simpl. lia.
Qed.

Lemma line14_runs (h : string) w :
  line14 env h w
  = Some (fst (NewStringUTF env (CStr.c_str h) (jvm w)),
          mkWorld (logcat w) (snd (NewStringUTF env (CStr.c_str h) (jvm w)))
                  (statics w)).
Proof.
  unfold line14, env_NewStringUTF.
  destruct (NewStringUTF env (CStr.c_str h) (jvm w)) as [r j]. reflexivity.
Qed.

(** The whole call, in one equation: the value is what [NewStringUTF]
    answers for the text, the log gains the load entry, the runtime is left
    as [NewStringUTF] left it, and static storage is as before. *)
Lemma stringFromJNI_runs this w :
  stringFromJNI env this w
  = Some (fst (NewStringUTF env (CStr.c_str hello_text) (jvm w)),
          mkWorld (logcat w ++ [load_entry])
                  (snd (NewStringUTF env (CStr.c_str hello_text) (jvm w)))
                  (statics w)).
Proof.
  unfold Java_com_profieldmanager_MainActivity_stringFromJNI, bind.
  rewrite line12_runs, line13_runs, line14_runs. reflexivity.
Qed.

(** A reference that is not [NULL], coming from a conforming runtime,
    reads as the text. *)
Lemma text_of_result this w :
  conforms env ->
  fst (NewStringUTF env (CStr.c_str hello_text) (jvm w)) <> NULL ->
  returned_text env (stringFromJNI env this w) = Some hello_text.
Proof.
  intros Hc Hr. rewrite stringFromJNI_runs. unfold returned_text.
  destruct (NewStringUTF env (CStr.c_str hello_text) (jvm w)) as [r j] eqn:E.
  simpl in *.
  destruct (N.eqb r NULL) eqn:Er.
  - apply N.eqb_eq in Er. contradiction.
  - apply (Hc (CStr.c_str hello_text) hello_text (jvm w) j r);
      [apply read_c_str; reflexivity | reflexivity | exact E | exact Hr].
Qed.

(** *** The machine and the function agree *)

Lemma step_enter this w : step (enter env this w) = Some (after12 env this w).
Proof. unfold step, enter. cbn [at_point]. rewrite line12_runs. reflexivity. Qed.

Lemma step_after12 this w : step (after12 env this w) = Some (after13 env this w).
Proof. unfold step, after12. cbn [at_point]. rewrite line13_runs. reflexivity. Qed.

Lemma step_after13 this w : step (after13 env this w) = Some (after14 env this w).
Proof. unfold step, after13. cbn [at_point hello arg_env]. rewrite line14_runs. reflexivity. Qed.

Lemma step_after14 this w : step (after14 env this w) = None.
Proof. reflexivity. Qed.

Lemma steps_S (n : nat) (c : config J G) :
  steps (S n) c = match step c with
                  | Some c' => c :: steps n c'
                  | None => [c]
                  end.
Proof. reflexivity. Qed.

Lemma steps_enter this w :
  steps 3 (enter env this w)
  = [enter env this w; after12 env this w; after13 env this w; after14 env this w].
Proof.
  rewrite steps_S, step_enter, steps_S, step_after12, steps_S, step_after13.
  reflexivity.
Qed.

Lemma outcome_after14 this w :
  outcome (after14 env this w) = stringFromJNI env this w.
Proof. rewrite stringFromJNI_runs. reflexivity. Qed.

Lemma step_follows_text (c c' : config J G) :
  step c = Some c' -> successor (at_point (fst c)) = Some (at_point (fst c')).
Proof.
  destruct c as [f w]. unfold step. cbn [fst].
  destruct (at_point f).
  - destruct (line12 w) as [[h w1]|]; [|discriminate].
    intros H. injection H as <-. reflexivity.
  - destruct (line13 w) as [[u w1]|]; [|discriminate].
    intros H. injection H as <-. reflexivity.
  - destruct (hello f) as [h|]; [|discriminate].
    destruct (line14 (arg_env f) h w) as [[r w1]|]; [|discriminate].
    intros H. injection H as <-. reflexivity.
  - discriminate.
Qed.

(** No step of the body writes static storage; the log changes only at
    line 13 and the runtime only at line 14. *)
Lemma step_frame_rule (c c' : config J G) :
  step c = Some c' ->
  statics (snd c') = statics (snd c)
  /\ (at_point (fst c) <> Line13 -> logcat (snd c') = logcat (snd c))
  /\ (at_point (fst c) <> Line14 -> jvm (snd c') = jvm (snd c)).
Proof.
  destruct c as [f w]. unfold step. cbn [fst snd].
  destruct (at_point f).
  - rewrite line12_runs. intros H. injection H as <-. simpl. tauto.
  - rewrite line13_runs. intros H. injection H as <-. simpl. tauto.
  - destruct (hello f) as [h|]; [|discriminate].
    unfold line14, env_NewStringUTF.
    destruct (NewStringUTF (arg_env f) (CStr.c_str h) (jvm w)) as [r j].
    intros H. injection H as <-. simpl. tauto.
  - discriminate.
Qed.

End OneCall.

(** *** Repeated calls *)
Section ManyCalls.

Variables J G : Type.
Variable env : JNIEnv J.

Implicit Types (w : World J G) (this : jobject).

Lemma later_call_S this (n : nat) w :
  later_call env this (S n) w
  = later_call env this n
      (mkWorld (logcat w ++ [load_entry])
               (snd (NewStringUTF env (CStr.c_str hello_text) (jvm w)))
               (statics w)).
Proof.
  cbn [later_call]. unfold bind. rewrite stringFromJNI_runs. reflexivity.
Qed.

(** Call [n + 1] returns; it finds static storage as the first call found
    it, and [n + 1] entries more in the log when it is done. *)
Lemma later_call_runs this (n : nat) :
  forall w, exists r w',
    later_call env this n w = Some (r, w')
    /\ statics w' = statics w
    /\ length (logcat w') = length (logcat w) + S n.
Proof.
  induction n as [|n IH]; intros w.
  - cbn [later_call]. rewrite stringFromJNI_runs.
    eexists. eexists. split; [reflexivity|].
    cbn [statics logcat]. split; [reflexivity|].
    rewrite length_app. reflexivity.
  - rewrite later_call_S.
    destruct (IH (mkWorld (logcat w ++ [load_entry])
                    (snd (NewStringUTF env (CStr.c_str hello_text) (jvm w)))
                    (statics w))) as (r & w' & Hrun & Hst & Hlog).
    exists r, w'. split; [exact Hrun|].
    cbn [statics logcat] in Hst, Hlog. split; [exact Hst|].
    rewrite Hlog, length_app. simpl. lia.
Qed.

(** Whenever call [n + 1] returns a string, it reads as the text. *)
Lemma later_call_text this (n : nat) :
  conforms env ->
  forall w r w',
    later_call env this n w = Some (r, w') -> r <> NULL ->
    returned_text env (later_call env this n w) = Some hello_text.
Proof.
  intros Hc. induction n as [|n IH]; intros w r w' Hrun Hr.
  - cbn [later_call] in *. apply text_of_result; [exact Hc|].
    rewrite stringFromJNI_runs in Hrun. injection Hrun as <- _. exact Hr.
  - rewrite later_call_S in *. exact (IH _ r w' Hrun Hr).
Qed.

End ManyCalls.

(** *** The reference runtime conforms *)

Lemma RefJVM_conforms : conforms RefJVM.env.
Proof.
  intros buf s j j' r Hread _ Hnew Hr.
  cbn [NewStringUTF RefJVM.env] in Hnew.
  unfold RefJVM.new_string_utf in Hnew. rewrite Hread in Hnew.
  destruct (Nat.ltb (length (RefJVM.table j)) (RefJVM.room j)).
  - pose proof (f_equal fst Hnew) as Er.
    pose proof (f_equal snd Hnew) as Ej.
    cbn [fst snd] in Er, Ej. subst r j'.
    cbn [GetStringUTFChars RefJVM.env].
    unfold RefJVM.get_string_utf_chars, NULL.
    destruct (N.eqb (N.of_nat (S (length (RefJVM.table j)))) 0) eqn:E.
    + apply N.eqb_eq in E. lia.
    + rewrite Nat2N.id. cbn [pred RefJVM.table].
      rewrite nth_error_app2 by lia. rewrite Nat.sub_diag. reflexivity.
  - injection Hnew as <- _. contradiction.
Qed.

Lemma steps_halted {J G : Type} (env : JNIEnv J) (this : jobject)
      (w : World J G) (n : nat) :
  steps n (after14 env this w) = [after14 env this w].
Proof.
  destruct n as [|n]; [reflexivity|].
  rewrite steps_S, step_after14. reflexivity.
Qed.

Lemma steps_beyond {J G : Type} (env : JNIEnv J) (this : jobject)
      (w : World J G) (n : nat) :
  steps (3 + n) (enter env this w) = steps 3 (enter env this w).
Proof.
  rewrite steps_enter. cbn [Nat.add].
  rewrite steps_S, step_enter, steps_S, step_after12, steps_S, step_after13.
  rewrite steps_halted. reflexivity.
Qed.

(** *** Calls in sequence, exactly *)

Lemma later_call_exact {J G : Type} (env : JNIEnv J) (this : jobject)
      (n : nat) :
  forall w : World J G,
    later_call env this n w
    = Some (answer_after env n (jvm w),
            mkWorld (logcat w ++ repeat load_entry (S n))
                    (Nat.iter (S n) (next_runtime env) (jvm w))
                    (statics w)).
Proof.
  unfold answer_after.
  induction n as [|n IH]; intros w.
  - cbn [later_call]. rewrite stringFromJNI_runs. reflexivity.
  - rewrite later_call_S, IH. cbn [logcat jvm statics].
    rewrite <- app_assoc.
    rewrite (Nat.iter_succ_r n) with (x := jvm w).
    rewrite (Nat.iter_succ_r (S n)) with (x := jvm w).
    reflexivity.
Qed.

(** On a conforming runtime an answer that is not [NULL] reads as the text
    in the runtime state its call leaves. *)
Lemma answer_reads_text {J : Type} (env : JNIEnv J) (n : nat) (j : J) :
  conforms env -> answer_after env n j <> NULL ->
  GetStringUTFChars env (answer_after env n j)
                    (Nat.iter (S n) (next_runtime env) j)
  = Some hello_text.
Proof.
  intros Hc Hr.
  remember (Nat.iter n (next_runtime env) j) as x eqn:Ex.
  change (Nat.iter (S n) (next_runtime env) j)
    with (next_runtime env (Nat.iter n (next_runtime env) j)).
  unfold answer_after in *. rewrite <- Ex in *. unfold next_runtime.
  destruct (NewStringUTF env (CStr.c_str hello_text) x) as [r j'] eqn:E.
  cbn [fst snd] in *.
  exact (Hc (CStr.c_str hello_text) hello_text x j' r
            (read_c_str hello_text eq_refl) eq_refl E Hr).
Qed.

Lemma later_call_reads {J G : Type} (env : JNIEnv J) (this : jobject)
      (n : nat) (w : World J G) :
  returned_text env (later_call env this n w)
  = if N.eqb (answer_after env n (jvm w)) NULL then None
    else GetStringUTFChars env (answer_after env n (jvm w))
                           (Nat.iter (S n) (next_runtime env) (jvm w)).
Proof. rewrite later_call_exact. reflexivity. Qed.

(** *** Pools of concurrent calls *)

Lemma count_set_nth {A : Type} (P : A -> bool) (x f : A) :
  forall (l : list A) (i : nat),
    nth_error l i = Some f ->
    count P (set_nth i x l) + (if P f then 1 else 0)
    = count P l + (if P x then 1 else 0).
Proof.
  unfold count.
  induction l as [|h t IH]; intros [|i] H; try discriminate.
  - injection H as ->. cbn [set_nth filter].
    destruct (P f), (P x); cbn [length]; lia.
  - cbn [nth_error] in H. specialize (IH i H).
    cbn [set_nth filter]. destruct (P h); cbn [length]; lia.
Qed.

Lemma Forall_set_nth {A : Type} (Q : A -> Prop) (x : A) :
  forall (l : list A) (i : nat),
    Forall Q l -> Q x -> Forall Q (set_nth i x l).
Proof.
  induction l as [|h t IH]; intros i Hl Hx.
  - destruct i; constructor.
  - inversion Hl as [|? ? Hh Ht]; subst.
    destruct i as [|i]; cbn [set_nth]; constructor; auto.
Qed.

Lemma Forall_nth_error {A : Type} (Q : A -> Prop) (l : list A) (i : nat) (f : A) :
  Forall Q l -> nth_error l i = Some f -> Q f.
Proof.
  intros Hl H. rewrite Forall_forall in Hl.
  apply Hl. exact (nth_error_In l i H).
Qed.

Lemma count_spawned {J G : Type} (env : JNIEnv J) (w : World J G)
      (handles : list jobject) :
  count returned (fst (spawn env handles w)) = 0
  /\ count logged (fst (spawn env handles w)) = 0.
Proof.
  unfold spawn, count. cbn [fst].
  induction handles as [|h t [IH1 IH2]]; [split; reflexivity|].
  cbn [map filter]. unfold enter at 1 3. cbn [fst].
  unfold returned at 1, logged at 1. cbn [at_point].
  split; assumption.
Qed.

Section Pools.

Variables J G : Type.
Variable env : JNIEnv J.
Variable w : World J G.

Lemma frame_ok_mono (k k' : nat) (f : frame J) :
  k <= k' -> frame_ok env (jvm w) k f -> frame_ok env (jvm w) k' f.
Proof.
  intros Hk [He Hf]. split; [exact He|].
  destruct (at_point f); try exact Hf.
  destruct Hf as (j & Hj & Hr). exists j. split; [lia|exact Hr].
Qed.

Lemma spawn_ok (handles : list jobject) : pool_ok env w (spawn env handles w).
Proof.
  destruct (count_spawned env w handles) as [Er El].
  unfold pool_ok. rewrite Er, El.
  unfold spawn at 1 2 3 4. cbn [fst snd Nat.iter repeat].
  rewrite app_nil_r. repeat split.
  apply Forall_forall. intros f Hin. apply in_map_iff in Hin.
  destruct Hin as (t & <- & _). split; [reflexivity|exact I].
Qed.

Lemma turn_ok (i : nat) (p : pool J G) :
  pool_ok env w p -> pool_ok env w (turn i p).
Proof.
  destruct p as [fs wp]. unfold turn. cbn [fst snd].
  intros Hp.
  destruct (nth_error fs i) as [f|] eqn:E; [|exact Hp].
  destruct Hp as (Hst & Hjvm & Hlog & Hall). cbn [fst snd] in *.
  pose proof (Forall_nth_error _ _ _ _ Hall E) as [Henv Hf].
  unfold step. destruct (at_point f) eqn:Ep.
  - (* line 12 *)
    rewrite line12_runs.
    set (f' := mkFrame Line13 (arg_env f) (arg_this f) (Some hello_text) (retval f)).
    pose proof (count_set_nth returned f' f fs i E) as Cr.
    pose proof (count_set_nth logged f' f fs i E) as Cl.
    assert (Rf : returned f = false) by (unfold returned; rewrite Ep; reflexivity).
    assert (Lf : logged f = false) by (unfold logged; rewrite Ep; reflexivity).
    rewrite Rf in Cr. rewrite Lf in Cl.
    change (returned f') with false in Cr. change (logged f') with false in Cl.
    cbv iota in Cr, Cl.
    unfold pool_ok. cbn [fst snd].
    replace (count returned (set_nth i f' fs)) with (count returned fs) by lia.
    replace (count logged (set_nth i f' fs)) with (count logged fs) by lia.
    repeat split; try assumption.
    apply Forall_set_nth; [exact Hall|].
    split; [exact Henv|reflexivity].
  - (* line 13 *)
    rewrite line13_runs.
    set (f' := mkFrame Line14 (arg_env f) (arg_this f) (hello f) (retval f)).
    pose proof (count_set_nth returned f' f fs i E) as Cr.
    pose proof (count_set_nth logged f' f fs i E) as Cl.
    assert (Rf : returned f = false) by (unfold returned; rewrite Ep; reflexivity).
    assert (Lf : logged f = false) by (unfold logged; rewrite Ep; reflexivity).
    rewrite Rf in Cr. rewrite Lf in Cl.
    change (returned f') with false in Cr. change (logged f') with true in Cl.
    cbv iota in Cr, Cl.
    unfold pool_ok. cbn [fst snd logcat jvm statics].
    replace (count returned (set_nth i f' fs)) with (count returned fs) by lia.
    replace (count logged (set_nth i f' fs)) with (S (count logged fs)) by lia.
    repeat split; try assumption.
    + rewrite Hlog, <- app_assoc. f_equal.
      cbn [repeat]. symmetry. apply repeat_cons.
    + apply Forall_set_nth; [exact Hall|].
      split; [exact Henv|exact Hf].
  - (* line 14 *)
    rewrite Hf, line14_runs.
    set (f' := mkFrame Returned (arg_env f) (arg_this f) (Some hello_text)
                 (Some (fst (NewStringUTF (arg_env f) (CStr.c_str hello_text) (jvm wp))))).
    pose proof (count_set_nth returned f' f fs i E) as Cr.
    pose proof (count_set_nth logged f' f fs i E) as Cl.
    assert (Rf : returned f = false) by (unfold returned; rewrite Ep; reflexivity).
    assert (Lf : logged f = true) by (unfold logged; rewrite Ep; reflexivity).
    rewrite Rf in Cr. rewrite Lf in Cl.
    change (returned f') with true in Cr. change (logged f') with true in Cl.
    cbv iota in Cr, Cl.
    unfold pool_ok. cbn [fst snd logcat jvm statics].
    replace (count returned (set_nth i f' fs)) with (S (count returned fs)) by lia.
    replace (count logged (set_nth i f' fs)) with (count logged fs) by lia.
    repeat split; try assumption.
    + rewrite Henv, Hjvm. reflexivity.
    + apply Forall_set_nth.
      * eapply Forall_impl; [|exact Hall].
        intros g. apply frame_ok_mono. lia.
      * split; [exact Henv|]. unfold f'. cbn [at_point retval].
        exists (count returned fs). split; [lia|].
        rewrite Henv, Hjvm. reflexivity.
  - (* returned *)
    exact (conj Hst (conj Hjvm (conj Hlog Hall))).
Qed.

Lemma interleave_ok (schedule : list nat) :
  forall p : pool J G, pool_ok env w p -> pool_ok env w (interleave schedule p).
Proof.
  induction schedule as [|i rest IH]; intros p Hp.
  - exact Hp.
  - cbn [interleave]. apply IH. apply turn_ok. exact Hp.
Qed.

End Pools.

(** ** The claims *)

(** C1, as amended.  On every call for which the runtime's [NewStringUTF]
    constructs the string (its answer for the literal is not [NULL]), the
    function returns that very reference, and it is a Java string that reads
    exactly "Pro Field Manager Native Library - 16KB Page Aligned". *)
Theorem C1_returned_string_is_the_literal
        (J G : Type) (env : JNIEnv J) (this : jobject) (w : World J G) :
  conforms env ->
  fst (NewStringUTF env
         (CStr.c_str "Pro Field Manager Native Library - 16KB Page Aligned")
         (jvm w)) <> NULL ->
  exists r w',
    stringFromJNI env this w = Some (r, w')
    /\ r = fst (NewStringUTF env
                  (CStr.c_str "Pro Field Manager Native Library - 16KB Page Aligned")
                  (jvm w))
    /\ r <> NULL
    /\ returned_text env (stringFromJNI env this w)
       = Some "Pro Field Manager Native Library - 16KB Page Aligned".
Proof.
  intros Hc Hr.
  pose proof (text_of_result J G env this w Hc Hr) as Ht.
  rewrite stringFromJNI_runs in *.
  eexists. eexists. split; [reflexivity|].
  split; [reflexivity|]. split; [exact Hr|exact Ht].
Qed.

Lemma C1_returned_string_is_the_literal_witness :
  conforms RefJVM.env
  /\ fst (NewStringUTF RefJVM.env
            (CStr.c_str "Pro Field Manager Native Library - 16KB Page Aligned")
            (jvm (RefJVM.boot 1))) <> NULL
  /\ exists r w',
      stringFromJNI RefJVM.env 9%N (RefJVM.boot 1) = Some (r, w')
      /\ r = fst (NewStringUTF RefJVM.env
                    (CStr.c_str "Pro Field Manager Native Library - 16KB Page Aligned")
                    (jvm (RefJVM.boot 1)))
      /\ r <> NULL
      /\ returned_text RefJVM.env (stringFromJNI RefJVM.env 9%N (RefJVM.boot 1))
         = Some "Pro Field Manager Native Library - 16KB Page Aligned".
Proof.
  assert (Hr : fst (NewStringUTF RefJVM.env
                      (CStr.c_str "Pro Field Manager Native Library - 16KB Page Aligned")
                      (jvm (RefJVM.boot 1))) <> NULL)
    by (vm_compute; discriminate).
  split; [exact RefJVM_conforms|]. split; [exact Hr|].
  exact (C1_returned_string_is_the_literal
           RefJVM.state Z RefJVM.env 9%N (RefJVM.boot 1) RefJVM_conforms Hr).
Defined.

(** C1 as stated fails: on a runtime with no room left the call returns
    [NULL], which reads as no text at all. *)
Lemma C1_no_text_without_room :
  returned_text RefJVM.env (stringFromJNI RefJVM.env 9%N (RefJVM.boot 0))
  <> Some "Pro Field Manager Native Library - 16KB Page Aligned".
Proof. vm_compute. discriminate. Qed.

(** C2, as amended.  The value returned is the very reference the runtime's
    [NewStringUTF] answers: it is [NULL] exactly when that answer is, and
    whenever it is not [NULL] the string it refers to is not empty. *)
Theorem C2_result_is_the_runtime_answer
        (J G : Type) (env : JNIEnv J) (this : jobject) (w : World J G) :
  conforms env ->
  exists r w',
    stringFromJNI env this w = Some (r, w')
    /\ r = fst (NewStringUTF env (CStr.c_str hello_text) (jvm w))
    /\ (r <> NULL ->
        exists s, returned_text env (stringFromJNI env this w) = Some s
                  /\ 0 < String.length s).
Proof.
  intros Hc. rewrite stringFromJNI_runs.
  eexists. eexists. split; [reflexivity|]. split; [reflexivity|].
  intros Hr. exists hello_text. split.
  - rewrite <- stringFromJNI_runs with (this := this).
    exact (text_of_result J G env this w Hc Hr).
  - simpl. lia.
Qed.

Lemma C2_result_is_the_runtime_answer_witness :
  conforms RefJVM.env
  /\ exists r w',
      stringFromJNI RefJVM.env 3%N (RefJVM.boot 2) = Some (r, w')
      /\ r = fst (NewStringUTF RefJVM.env (CStr.c_str hello_text)
                               (jvm (RefJVM.boot 2)))
      /\ (r <> NULL ->
          exists s,
            returned_text RefJVM.env
                          (stringFromJNI RefJVM.env 3%N (RefJVM.boot 2)) = Some s
            /\ 0 < String.length s).
Proof.
  split.
  - exact RefJVM_conforms.
  - apply (C2_result_is_the_runtime_answer
             RefJVM.state Z RefJVM.env 3%N (RefJVM.boot 2)).
    exact RefJVM_conforms.
Defined.

(** C2 as stated fails: with the runtime's only slot taken, no call returns
    a reference other than [NULL]. *)
Lemma C2_null_when_full :
  ~ exists r w',
      stringFromJNI RefJVM.env 3%N RefJVM.full = Some (r, w') /\ r <> NULL.
Proof.
  intros (r & w' & Hrun & Hr).
  vm_compute in Hrun. injection Hrun as <- _.
  apply Hr. reflexivity.
Qed.

(** C3.  The call has one outcome, a normal return, in every world and for
    every runtime: it never lacks a result, it hands back the answer of
    [NewStringUTF] untouched ([NULL] included) and leaves the runtime as
    [NewStringUTF] left it, and what it does itself (the log entry, static
    storage, the program points visited) is the same whatever that answer
    was. *)
Theorem C3_no_failure_path
        (J G : Type) (env : JNIEnv J) (this : jobject) (w : World J G) :
  exists r w',
    stringFromJNI env this w = Some (r, w')
    /\ (r, jvm w') = NewStringUTF env (CStr.c_str hello_text) (jvm w)
    /\ logcat w' = logcat w ++ [load_entry]
    /\ statics w' = statics w
    /\ map (fun c => at_point (fst c)) (steps 3 (enter env this w))
       = [Line12; Line13; Line14; Returned].
Proof.
  rewrite stringFromJNI_runs, steps_enter.
  eexists. eexists. split; [reflexivity|].
  cbn [jvm logcat statics].
  repeat split.
  destruct (NewStringUTF env (CStr.c_str hello_text) (jvm w)); reflexivity.
Qed.

(** C4, as amended.  Take any two calls of a sequence, the one made after
    [m] earlier calls and the one made after [n].  Each returns exactly what
    [NewStringUTF] answers for the literal in the runtime state the earlier
    calls left, and finds and leaves static storage as it was before the
    first call: the library carries nothing from one call to the next.  A
    call whose answer is not [NULL] returns a string that reads as the
    literal, so any two such calls return the same contents; a call whose
    answer is [NULL] returns [NULL], and no text. *)
Theorem C4_calls_agree
        (J G : Type) (env : JNIEnv J) (this : jobject) (w : World J G)
        (m n : nat) :
  conforms env ->
  exists w1 w2,
    later_call env this m w = Some (answer_after env m (jvm w), w1)
    /\ later_call env this n w = Some (answer_after env n (jvm w), w2)
    /\ statics w1 = statics w /\ statics w2 = statics w
    /\ (answer_after env m (jvm w) <> NULL ->
        returned_text env (later_call env this m w) = Some hello_text)
    /\ (answer_after env n (jvm w) <> NULL ->
        returned_text env (later_call env this n w) = Some hello_text)
    /\ (answer_after env m (jvm w) = NULL ->
        returned_text env (later_call env this m w) = None)
    /\ (answer_after env n (jvm w) = NULL ->
        returned_text env (later_call env this n w) = None)
    /\ (answer_after env m (jvm w) <> NULL ->
        answer_after env n (jvm w) <> NULL ->
        returned_text env (later_call env this m w)
        = returned_text env (later_call env this n w)).
Proof.
  intros Hc.
  assert (Htext : forall k, answer_after env k (jvm w) <> NULL ->
                            returned_text env (later_call env this k w)
                            = Some hello_text).
  { intros k Hk. rewrite later_call_reads.
    destruct (N.eqb (answer_after env k (jvm w)) NULL) eqn:E.
    - apply N.eqb_eq in E. contradiction.
    - apply answer_reads_text; assumption. }
  assert (Hnull : forall k, answer_after env k (jvm w) = NULL ->
                            returned_text env (later_call env this k w) = None).
  { intros k Hk. rewrite later_call_reads, Hk. reflexivity. }
  eexists. eexists.
  split; [apply later_call_exact|]. split; [apply later_call_exact|].
  cbn [statics]. repeat split; auto.
  intros Hm Hn. rewrite (Htext m Hm), (Htext n Hn). reflexivity.
Qed.

Lemma C4_calls_agree_witness :
  conforms RefJVM.env
  /\ answer_after RefJVM.env 1 (jvm (RefJVM.boot 2)) = 2%N
  /\ answer_after RefJVM.env 3 (jvm (RefJVM.boot 2)) = NULL
  /\ exists w1 w2,
      later_call RefJVM.env 5%N 1 (RefJVM.boot 2)
      = Some (answer_after RefJVM.env 1 (jvm (RefJVM.boot 2)), w1)
      /\ later_call RefJVM.env 5%N 3 (RefJVM.boot 2)
         = Some (answer_after RefJVM.env 3 (jvm (RefJVM.boot 2)), w2)
      /\ statics w1 = statics (RefJVM.boot 2)
      /\ statics w2 = statics (RefJVM.boot 2)
      /\ (answer_after RefJVM.env 1 (jvm (RefJVM.boot 2)) <> NULL ->
          returned_text RefJVM.env (later_call RefJVM.env 5%N 1 (RefJVM.boot 2))
          = Some hello_text)
      /\ (answer_after RefJVM.env 3 (jvm (RefJVM.boot 2)) <> NULL ->
          returned_text RefJVM.env (later_call RefJVM.env 5%N 3 (RefJVM.boot 2))
          = Some hello_text)
      /\ (answer_after RefJVM.env 1 (jvm (RefJVM.boot 2)) = NULL ->
          returned_text RefJVM.env (later_call RefJVM.env 5%N 1 (RefJVM.boot 2))
          = None)
      /\ (answer_after RefJVM.env 3 (jvm (RefJVM.boot 2)) = NULL ->
          returned_text RefJVM.env (later_call RefJVM.env 5%N 3 (RefJVM.boot 2))
          = None)
      /\ (answer_after RefJVM.env 1 (jvm (RefJVM.boot 2)) <> NULL ->
          answer_after RefJVM.env 3 (jvm (RefJVM.boot 2)) <> NULL ->
          returned_text RefJVM.env (later_call RefJVM.env 5%N 1 (RefJVM.boot 2))
          = returned_text RefJVM.env (later_call RefJVM.env 5%N 3 (RefJVM.boot 2))).
Proof.
  split; [exact RefJVM_conforms|].
  split; [vm_compute; reflexivity|].
  split; [vm_compute; reflexivity|].
  exact (C4_calls_agree RefJVM.state Z RefJVM.env 5%N (RefJVM.boot 2) 1 3
                        RefJVM_conforms).
Defined.

(** C4 as stated fails: on a runtime with room for one string the first
    call returns the text and the second returns [NULL]. *)
Lemma C4_second_call_differs :
  returned_text RefJVM.env (later_call RefJVM.env 5%N 1 (RefJVM.boot 1))
  <> returned_text RefJVM.env (later_call RefJVM.env 5%N 0 (RefJVM.boot 1)).
Proof. vm_compute. discriminate. Qed.

(** C5.  Every call returns having appended exactly one entry to the log:
    priority INFO, tag "ProFieldManager", message
    "Native library loaded successfully with 16KB page alignment". *)
Theorem C5_one_log_entry
        (J G : Type) (env : JNIEnv J) (this : jobject) (w : World J G) :
  exists r w',
    stringFromJNI env this w = Some (r, w')
    /\ logcat w'
       = logcat w
         ++ [ {| prio := ANDROID_LOG_INFO;
                 tag := "ProFieldManager";
                 text := "Native library loaded successfully with 16KB page alignment" |} ].
Proof.
  rewrite stringFromJNI_runs.
  eexists. eexists. split; reflexivity.
Qed.

(** C6.  A call writes nothing but the log and the runtime: static storage
    is the same in every configuration of the run and at the return; the
    entries already in the log stay and one is added; the runtime is changed
    by the one [NewStringUTF] call and by nothing else. *)
Theorem C6_frame
        (J G : Type) (env : JNIEnv J) (this : jobject) (w : World J G) :
  exists r w',
    stringFromJNI env this w = Some (r, w')
    /\ statics w' = statics w
    /\ Forall (fun c => statics (snd c) = statics w) (steps 3 (enter env this w))
    /\ firstn (length (logcat w)) (logcat w') = logcat w
    /\ length (logcat w') = S (length (logcat w))
    /\ jvm w' = snd (NewStringUTF env (CStr.c_str hello_text) (jvm w)).
Proof.
  rewrite stringFromJNI_runs, steps_enter.
  eexists. eexists. split; [reflexivity|].
  cbn [statics logcat jvm]. repeat split.
  - repeat constructor.
  - rewrite firstn_app, Nat.sub_diag, firstn_all. cbn [firstn].
    apply app_nil_r.
  - rewrite length_app. simpl. lia.
Qed.

(** C7.  From entry, the body visits lines 12, 13 and 14 and returns, in
    that order and for every input; there it halts, however many further
    steps are allowed, with the result of the call.  Every program point has
    at most one successor, fixed by the text: no step chooses. *)
Theorem C7_straight_line_terminates
        (J G : Type) (env : JNIEnv J) (this : jobject) (w : World J G) :
  (forall n, map (fun c => at_point (fst c)) (steps (3 + n) (enter env this w))
             = [Line12; Line13; Line14; Returned])
  /\ outcome (last (steps 3 (enter env this w)) (enter env this w))
     = stringFromJNI env this w
  /\ stringFromJNI env this w <> None
  /\ (forall c : config J G,
         match step c with
         | Some c' => successor (at_point (fst c)) = Some (at_point (fst c'))
         | None => True
         end).
Proof.
  split; [|split; [|split]].
  - intros n. rewrite steps_beyond, steps_enter. reflexivity.
  - rewrite steps_enter. cbn [last]. apply outcome_after14.
  - rewrite stringFromJNI_runs. discriminate.
  - intros c. destruct (step c) as [c'|] eqn:E; [|exact I].
    exact (step_follows_text J G c c' E).
Qed.

(** C8.  The declaration exported by [native-lib.cpp] is the one under which
    the runtime binds the instance method [stringFromJNI] of the class
    [com.profieldmanager.MainActivity]: the symbol
    [Java_com_profieldmanager_MainActivity_stringFromJNI], taking the
    environment handle and the instance handle and returning a string. *)
Theorem C8_exported_symbol :
  Binding.binding Binding.MainActivity_stringFromJNI
  = Some Binding.native_lib_export
  /\ Binding.symbol Binding.native_lib_export
     = "Java_com_profieldmanager_MainActivity_stringFromJNI"
  /\ Binding.params Binding.native_lib_export
     = [Binding.T_JNIEnv_ptr; Binding.T_jobject]
  /\ Binding.result Binding.native_lib_export = Binding.T_jstring.
Proof. repeat split. Qed.

(** C9, as amended.  Let any number of calls run concurrently, their
    statements interleaved in any order, each statement in one piece.  No
    call writes static storage; the log holds one more load entry for each
    call past line 13; the runtime is in the state that [k] calls of
    [NewStringUTF] on the literal leave, [k] being the number of calls that
    have returned.  Every call that has returned holds the result of one of
    the first [k] calls of a sequential run: the same reference, which is
    what [NewStringUTF] answered at that position, reading as the literal
    when it is not [NULL].  A call that has not returned can always take its
    next step, whatever the others have done.  The interleaving decides only
    which call gets which of these results. *)
Theorem C9_interleaved_calls
        (J G : Type) (env : JNIEnv J) (handles : list jobject)
        (schedule : list nat) (w : World J G) :
  conforms env ->
  statics (snd (interleave schedule (spawn env handles w))) = statics w
  /\ logcat (snd (interleave schedule (spawn env handles w)))
     = logcat w
       ++ repeat load_entry
                 (count logged (fst (interleave schedule (spawn env handles w))))
  /\ jvm (snd (interleave schedule (spawn env handles w)))
     = Nat.iter (count returned (fst (interleave schedule (spawn env handles w))))
                (next_runtime env) (jvm w)
  /\ (forall (i : nat) (f : frame J),
         nth_error (fst (interleave schedule (spawn env handles w))) i = Some f ->
         returned f = false ->
         exists c',
           step (f, snd (interleave schedule (spawn env handles w))) = Some c')
  /\ forall (i : nat) (f : frame J),
      nth_error (fst (interleave schedule (spawn env handles w))) i = Some f ->
      returned f = true ->
      exists (j : nat) (r : jstring) (w' : World J G),
        j < count returned (fst (interleave schedule (spawn env handles w)))
        /\ later_call env (arg_this f) j w = Some (r, w')
        /\ retval f = Some r
        /\ r = answer_after env j (jvm w)
        /\ (r <> NULL ->
            returned_text env (later_call env (arg_this f) j w) = Some hello_text).
Proof.
  intros Hc.
  destruct (interleave_ok J G env w schedule _ (spawn_ok J G env w handles))
    as (Hst & Hjvm & Hlog & Hall).
  split; [exact Hst|]. split; [exact Hlog|]. split; [exact Hjvm|].
  split.
  { intros i f Hi Hret.
    destruct (Forall_nth_error _ _ _ _ Hall Hi) as [_ Hf].
    unfold returned in Hret. unfold step.
    destruct (at_point f); try discriminate.
    - rewrite line12_runs. eexists. reflexivity.
    - rewrite line13_runs. eexists. reflexivity.
    - rewrite Hf, line14_runs. eexists. reflexivity. }
  intros i f Hi Hret.
  destruct (Forall_nth_error _ _ _ _ Hall Hi) as [_ Hf].
  unfold returned in Hret.
  destruct (at_point f); try discriminate.
  destruct Hf as (j & Hj & Hr).
  exists j, (answer_after env j (jvm w)). eexists.
  split; [exact Hj|]. split; [apply later_call_exact|].
  split; [exact Hr|]. split; [reflexivity|].
  intros Hn. rewrite later_call_reads.
  destruct (N.eqb (answer_after env j (jvm w)) NULL) eqn:E.
  - apply N.eqb_eq in E. contradiction.
  - apply answer_reads_text; assumption.
Qed.

Lemma C9_interleaved_calls_witness :
  conforms RefJVM.env
  /\ map retval (fst (interleave [1; 0; 1; 0; 1; 0]
                                 (spawn RefJVM.env [5%N; 6%N] (RefJVM.boot 2))))
     = [Some 2%N; Some 1%N]
  /\ statics (snd (interleave [1; 0; 1; 0; 1; 0]
                              (spawn RefJVM.env [5%N; 6%N] (RefJVM.boot 2))))
     = statics (RefJVM.boot 2)
  /\ logcat (snd (interleave [1; 0; 1; 0; 1; 0]
                             (spawn RefJVM.env [5%N; 6%N] (RefJVM.boot 2))))
     = logcat (RefJVM.boot 2)
       ++ repeat load_entry
            (count logged
               (fst (interleave [1; 0; 1; 0; 1; 0]
                                (spawn RefJVM.env [5%N; 6%N] (RefJVM.boot 2)))))
  /\ jvm (snd (interleave [1; 0; 1; 0; 1; 0]
                          (spawn RefJVM.env [5%N; 6%N] (RefJVM.boot 2))))
     = Nat.iter
         (count returned
            (fst (interleave [1; 0; 1; 0; 1; 0]
                             (spawn RefJVM.env [5%N; 6%N] (RefJVM.boot 2)))))
         (next_runtime RefJVM.env) (jvm (RefJVM.boot 2))
  /\ (forall (i : nat) (f : frame RefJVM.state),
         nth_error (fst (interleave [1; 0; 1; 0; 1; 0]
                                    (spawn RefJVM.env [5%N; 6%N] (RefJVM.boot 2)))) i
         = Some f ->
         returned f = false ->
         exists c',
           step (f, snd (interleave [1; 0; 1; 0; 1; 0]
                                    (spawn RefJVM.env [5%N; 6%N] (RefJVM.boot 2))))
           = Some c')
  /\ forall (i : nat) (f : frame RefJVM.state),
      nth_error (fst (interleave [1; 0; 1; 0; 1; 0]
                                 (spawn RefJVM.env [5%N; 6%N] (RefJVM.boot 2)))) i
      = Some f ->
      returned f = true ->
      exists (j : nat) (r : jstring) (w' : World RefJVM.state Z),
        j < count returned
              (fst (interleave [1; 0; 1; 0; 1; 0]
                               (spawn RefJVM.env [5%N; 6%N] (RefJVM.boot 2))))
        /\ later_call RefJVM.env (arg_this f) j (RefJVM.boot 2) = Some (r, w')
        /\ retval f = Some r
        /\ r = answer_after RefJVM.env j (jvm (RefJVM.boot 2))
        /\ (r <> NULL ->
            returned_text RefJVM.env
                          (later_call RefJVM.env (arg_this f) j (RefJVM.boot 2))
            = Some hello_text).
Proof.
  split; [exact RefJVM_conforms|].
  split; [vm_compute; reflexivity|].
  exact (C9_interleaved_calls RefJVM.state Z RefJVM.env [5%N; 6%N]
                              [1; 0; 1; 0; 1; 0] (RefJVM.boot 2) RefJVM_conforms).
Defined.

(** C9 as stated fails: with room for one string and the second call
    scheduled first, the first call is handed [NULL] and reads no text,
    while the same call made alone reads the literal. *)
Lemma C9_schedule_changes_result :
  thread_text RefJVM.env
              (interleave [1; 1; 1; 0; 0; 0]
                          (spawn RefJVM.env [5%N; 6%N] (RefJVM.boot 1))) 0
  <> returned_text RefJVM.env (stringFromJNI RefJVM.env 5%N (RefJVM.boot 1)).
Proof. vm_compute. discriminate. Qed.

(** C10.  The instance handle is never read: two calls that differ only in
    it return the same reference and leave the same world (log included),
    hence the same text, and pass through the same worlds on the way. *)
Theorem C10_independent_of_this
        (J G : Type) (env : JNIEnv J) (this1 this2 : jobject) (w : World J G) :
  stringFromJNI env this1 w = stringFromJNI env this2 w
  /\ returned_text env (stringFromJNI env this1 w)
     = returned_text env (stringFromJNI env this2 w)
  /\ map snd (steps 3 (enter env this1 w)) = map snd (steps 3 (enter env this2 w)).
Proof.
  rewrite !stringFromJNI_runs, !steps_enter. repeat split.
Qed.

(** ** Further properties of the code *)

(** *** Repeated calls, exactly *)

(** X1.  A run of [n + 1] calls appends [n + 1] copies of the load entry
    to the log, in order after what was there, and takes the runtime through
    [n + 1] calls of [NewStringUTF] on the same buffer; the value of the last
    call is the answer of the last of these.  Static storage is as before. *)
Theorem X1_calls_compose
        (J G : Type) (env : JNIEnv J) (this : jobject) (n : nat)
        (w : World J G) :
  later_call env this n w
  = Some (fst (NewStringUTF env (CStr.c_str hello_text)
                 (Nat.iter n (fun j => snd (NewStringUTF env (CStr.c_str hello_text) j))
                           (jvm w))),
          mkWorld (logcat w ++ repeat load_entry (S n))
                  (Nat.iter (S n)
                            (fun j => snd (NewStringUTF env (CStr.c_str hello_text) j))
                            (jvm w))
                  (statics w)).
Proof.
  revert w. induction n as [|n IH]; intros w.
  - cbn [later_call]. rewrite stringFromJNI_runs. reflexivity.
  - rewrite later_call_S, IH. cbn [logcat jvm statics].
    rewrite <- app_assoc.
    rewrite (Nat.iter_succ_r n) with (x := jvm w).
    rewrite (Nat.iter_succ_r (S n)) with (x := jvm w).
    reflexivity.
Qed.

(** *** What the result depends on *)

(** X2.  The reference returned and the state the runtime is left in depend
    on the world only through the state of the runtime: two calls started
    with the same runtime state, whatever the logs, the instance handles and
    the static storage (even of different shapes), return the same reference
    and leave the same runtime state. *)
Theorem X2_depends_on_runtime_only
        (J G1 G2 : Type) (env : JNIEnv J) (this1 this2 : jobject)
        (w1 : World J G1) (w2 : World J G2) :
  jvm w1 = jvm w2 ->
  exists r w1' w2',
    stringFromJNI env this1 w1 = Some (r, w1')
    /\ stringFromJNI env this2 w2 = Some (r, w2')
    /\ jvm w1' = jvm w2'.
Proof.
  intros E. rewrite !stringFromJNI_runs, E.
  eexists. eexists. eexists. repeat split.
Qed.

Lemma X2_depends_on_runtime_only_witness :
  jvm (RefJVM.boot 2)
  = jvm (mkWorld [load_entry; load_entry] (RefJVM.mkState [] 2 false) true)
  /\ exists r w1' w2',
      stringFromJNI RefJVM.env 1%N (RefJVM.boot 2) = Some (r, w1')
      /\ stringFromJNI RefJVM.env 8%N
           (mkWorld [load_entry; load_entry] (RefJVM.mkState [] 2 false) true)
         = Some (r, w2')
      /\ jvm w1' = jvm w2'.
Proof.
  split.
  - reflexivity.
  - apply (X2_depends_on_runtime_only
             RefJVM.state Z bool RefJVM.env 1%N 8%N (RefJVM.boot 2)
             (mkWorld [load_entry; load_entry] (RefJVM.mkState [] 2 false) true)).
    reflexivity.
Defined.

(** *** The logging macro *)

(** X4.  A message without a [%] directive, without NUL (it is passed as a
    C string) and shorter than liblog's buffer is logged by [LOGI] as it
    stands: the call is always defined, whatever arguments follow the
    message, and the entry's text is the message. *)
Theorem X4_LOGI_plain_message
        (J G : Type) (fmt : string) (args : list vararg) (w : World J G) :
  percent_free fmt = true -> nul_free fmt = true ->
  String.length fmt < LOG_BUF_SIZE ->
  LOGI J G fmt args w
  = Some (tt, mkWorld (logcat w ++ [mkLogEntry ANDROID_LOG_INFO LOG_TAG fmt])
                      (jvm w) (statics w)).
Proof.
  intros Hfree Hnul Hlen. unfold LOGI, __android_log_print.
  rewrite (entry_of_plain ANDROID_LOG_INFO LOG_TAG fmt args Hfree Hnul Hlen).
  reflexivity.
Qed.

Lemma X4_LOGI_plain_message_witness :
  percent_free "bridge ready" = true
  /\ nul_free "bridge ready" = true
  /\ String.length "bridge ready" < LOG_BUF_SIZE
  /\ LOGI RefJVM.state Z "bridge ready" [VaInt 1] RefJVM.full
     = Some (tt, mkWorld (logcat RefJVM.full
                          ++ [mkLogEntry ANDROID_LOG_INFO LOG_TAG "bridge ready"])
                         (jvm RefJVM.full) (statics RefJVM.full)).
Proof.
  assert (Hfree : percent_free "bridge ready" = true) by reflexivity.
  assert (Hnul : nul_free "bridge ready" = true) by reflexivity.
  assert (Hlen : String.length "bridge ready" < LOG_BUF_SIZE)
    by (unfold LOG_BUF_SIZE; simpl; lia).
  split; [exact Hfree|]. split; [exact Hnul|]. split; [exact Hlen|].
  exact (X4_LOGI_plain_message RefJVM.state Z "bridge ready" [VaInt 1]
                               RefJVM.full Hfree Hnul Hlen).
Defined.

(** *** Line 14 on any local *)

Lemma read_c_str_until_NUL (s1 s2 : string) :
  CStr.plain s1 = true ->
  CStr.read (CStr.c_str (s1 ++ String CStr.NUL s2)%string) = Some s1.
Proof.
  induction s1 as [|c s1 IH]; intros H.
  - reflexivity.
  - simpl in H. apply andb_prop in H. destruct H as [Hc Hs].
    unfold CStr.c_str in *. cbn [append CStr.read].
    rewrite (plain_char_not_NUL c Hc), (IH Hs). reflexivity.
Qed.

(** X5.  Line 14 carries any plain text intact: for a local [hello] of
    seven-bit characters without NUL and a conforming runtime, the statement
    returns, leaves the log and static storage alone, and a reference that is
    not [NULL] reads back as [hello], character for character. *)
Theorem X5_line14_round_trip
        (J G : Type) (env : JNIEnv J) (h : string) (w : World J G) :
  conforms env -> CStr.plain h = true ->
  exists r w',
    line14 env h w = Some (r, w')
    /\ logcat w' = logcat w
    /\ statics w' = statics w
    /\ (r <> NULL -> GetStringUTFChars env r (jvm w') = Some h).
Proof.
  intros Hc Hp. rewrite line14_runs.
  eexists. eexists. split; [reflexivity|].
  cbn [logcat statics jvm]. repeat split.
  intros Hr.
  destruct (NewStringUTF env (CStr.c_str h) (jvm w)) as [r j] eqn:E.
  cbn [fst snd] in *.
  exact (Hc (CStr.c_str h) h (jvm w) j r (read_c_str h Hp) Hp E Hr).
Qed.

Lemma X5_line14_round_trip_witness :
  conforms RefJVM.env
  /\ CStr.plain "16KB Page Aligned" = true
  /\ exists r w',
      line14 RefJVM.env "16KB Page Aligned" (RefJVM.boot 1) = Some (r, w')
      /\ logcat w' = logcat (RefJVM.boot 1)
      /\ statics w' = statics (RefJVM.boot 1)
      /\ (r <> NULL ->
          GetStringUTFChars RefJVM.env r (jvm w') = Some "16KB Page Aligned").
Proof.
  split; [exact RefJVM_conforms|]. split; [reflexivity|].
  apply (X5_line14_round_trip RefJVM.state Z RefJVM.env "16KB Page Aligned"
                              (RefJVM.boot 1)).
  - exact RefJVM_conforms.
  - reflexivity.
Defined.

(** X6.  Line 14 passes a C string, so the Java string ends where [hello]
    has its first NUL: for a local made of plain text [s1], a NUL and any
    tail [s2], a reference that is not [NULL] reads back as [s1] alone. *)
Theorem X6_line14_stops_at_NUL
        (J G : Type) (env : JNIEnv J) (s1 s2 : string) (w : World J G) :
  conforms env -> CStr.plain s1 = true ->
  exists r w',
    line14 env (s1 ++ String CStr.NUL s2)%string w = Some (r, w')
    /\ (r <> NULL -> GetStringUTFChars env r (jvm w') = Some s1).
Proof.
  intros Hc Hp. rewrite line14_runs.
  eexists. eexists. split; [reflexivity|].
  cbn [jvm]. intros Hr.
  destruct (NewStringUTF env (CStr.c_str (s1 ++ String CStr.NUL s2)%string) (jvm w))
    as [r j] eqn:E.
  cbn [fst snd] in *.
  exact (Hc _ s1 (jvm w) j r (read_c_str_until_NUL s1 s2 Hp) Hp E Hr).
Qed.

Lemma X6_line14_stops_at_NUL_witness :
  conforms RefJVM.env
  /\ CStr.plain "Pro Field" = true
  /\ exists r w',
      line14 RefJVM.env ("Pro Field" ++ String CStr.NUL " Manager")%string
             (RefJVM.boot 1) = Some (r, w')
      /\ (r <> NULL -> GetStringUTFChars RefJVM.env r (jvm w') = Some "Pro Field").
Proof.
  split; [exact RefJVM_conforms|]. split; [reflexivity|].
  apply (X6_line14_stops_at_NUL RefJVM.state Z RefJVM.env "Pro Field" " Manager"
                                (RefJVM.boot 1)).
  - exact RefJVM_conforms.
  - reflexivity.
Defined.

(** *** The machine from any configuration *)

Lemma step_decreases {J G : Type} (c c' : config J G) :
  step c = Some c' ->
  distance (at_point (fst c)) = S (distance (at_point (fst c'))).
Proof.
  intros H. apply step_follows_text in H.
  destruct (at_point (fst c)); simpl in H;
    try discriminate; injection H as <-; reflexivity.
Qed.

Lemma step_at_return {J G : Type} (c : config J G) :
  distance (at_point (fst c)) = 0 -> step c = None.
Proof.
  destruct c as [f w]. cbn [fst]. unfold step.
  destruct (at_point f); simpl; intros H; try discriminate. reflexivity.
Qed.

Lemma steps_settle {J G : Type} (k : nat) :
  forall c : config J G,
    distance (at_point (fst c)) <= k ->
    forall n, steps (k + n) c = steps k c.
Proof.
  induction k as [|k IH]; intros c Hd n.
  - assert (Hs : step c = None) by (apply step_at_return; lia).
    destruct n as [|n]; [reflexivity|].
    cbn [Nat.add]. rewrite steps_S, Hs. reflexivity.
  - cbn [Nat.add]. rewrite !steps_S.
    destruct (step c) as [c'|] eqn:E; [|reflexivity].
    apply step_decreases in E. rewrite IH by lia. reflexivity.
Qed.

Lemma steps_length {J G : Type} (n : nat) :
  forall c : config J G,
    length (steps n c) <= S (distance (at_point (fst c))).
Proof.
  induction n as [|n IH]; intros c.
  - simpl. lia.
  - rewrite steps_S. destruct (step c) as [c'|] eqn:E.
    + apply step_decreases in E. cbn [length].
      specialize (IH c'). lia.
    + simpl. lia.
Qed.

Lemma distance_bound (p : point) : distance p <= 3.
Proof. destruct p; simpl; lia. Qed.

(** X7.  A frame in which the locals it needs exist never gets stuck:
    either it has returned and reports a value, or it takes a step, and the
    frame it steps to is again of that kind.  (Line 14 is the only statement
    that reads a local; it finds [hello] constructed.) *)
Theorem X7_progress_and_preservation
        (J G : Type) (c : config J G) :
  well_formed c = true ->
  (at_point (fst c) = Returned /\ exists r, outcome c = Some (r, snd c))
  \/ (exists c', step c = Some c' /\ well_formed c' = true).
Proof.
  destruct c as [[p e t h rv] w].
  unfold well_formed, outcome. cbn [fst snd at_point hello retval].
  destruct p; intros Hwf.
  - right. unfold step. cbn [at_point]. rewrite line12_runs.
    eexists. split; reflexivity.
  - destruct h as [h|]; [|discriminate]. right.
    unfold step. cbn [at_point]. rewrite line13_runs.
    eexists. split; reflexivity.
  - destruct h as [h|]; [|discriminate]. right.
    unfold step. cbn [at_point hello arg_env]. rewrite line14_runs.
    eexists. split; reflexivity.
  - destruct rv as [r|]; [|discriminate]. left.
    split; [reflexivity|]. exists r. reflexivity.
Qed.

Lemma X7_progress_and_preservation_witness :
  well_formed (mkFrame Line14 RefJVM.env 2%N (Some "bridge") None, RefJVM.boot 1)
  = true
  /\ ((at_point (fst (mkFrame Line14 RefJVM.env 2%N (Some "bridge") None,
                      RefJVM.boot 1)) = Returned
       /\ exists r,
           outcome (mkFrame Line14 RefJVM.env 2%N (Some "bridge") None,
                    RefJVM.boot 1)
           = Some (r, snd (mkFrame Line14 RefJVM.env 2%N (Some "bridge") None,
                           RefJVM.boot 1)))
      \/ (exists c',
             step (mkFrame Line14 RefJVM.env 2%N (Some "bridge") None,
                   RefJVM.boot 1) = Some c'
             /\ well_formed c' = true)).
Proof.
  split.
  - reflexivity.
  - apply (X7_progress_and_preservation RefJVM.state Z
             (mkFrame Line14 RefJVM.env 2%N (Some "bridge") None, RefJVM.boot 1)).
    reflexivity.
Defined.

(** X8.  The body has no loop: from any configuration whatever, reachable
    or not, a run visits at most four configurations and is over after three
    steps, so allowing more steps changes nothing. *)
Theorem X8_runs_are_bounded
        (J G : Type) (c : config J G) (n : nat) :
  steps (3 + n) c = steps 3 c /\ length (steps n c) <= 4.
Proof.
  split.
  - apply steps_settle. apply distance_bound.
  - pose proof (steps_length n c) as H.
    pose proof (distance_bound (at_point (fst c))) as B. lia.
Qed.

(** X9.  What each statement may write.  A step never changes the
    parameters or static storage; the local [hello] is written only by line
    12, the log only by line 13, and the runtime and the return value only
    by line 14. *)
Theorem X9_statement_footprints
        (J G : Type) (c c' : config J G) :
  step c = Some c' ->
  arg_env (fst c') = arg_env (fst c)
  /\ arg_this (fst c') = arg_this (fst c)
  /\ statics (snd c') = statics (snd c)
  /\ (at_point (fst c) <> Line12 -> hello (fst c') = hello (fst c))
  /\ (at_point (fst c) <> Line13 -> logcat (snd c') = logcat (snd c))
  /\ (at_point (fst c) <> Line14 ->
      jvm (snd c') = jvm (snd c) /\ retval (fst c') = retval (fst c)).
Proof.
  destruct c as [[p e t h rv] w]. unfold step.
  cbn [fst snd at_point hello retval arg_env arg_this].
  destruct p.
  - rewrite line12_runs. intros H. injection H as <-. simpl. tauto.
  - rewrite line13_runs. intros H. injection H as <-. simpl. tauto.
  - destruct h as [h|]; [|discriminate].
    rewrite line14_runs. intros H. injection H as <-. simpl. tauto.
  - discriminate.
Qed.

Lemma X9_statement_footprints_witness :
  step (after12 RefJVM.env 4%N (RefJVM.boot 1))
  = Some (after13 RefJVM.env 4%N (RefJVM.boot 1))
  /\ arg_env (fst (after13 RefJVM.env 4%N (RefJVM.boot 1)))
     = arg_env (fst (after12 RefJVM.env 4%N (RefJVM.boot 1)))
  /\ arg_this (fst (after13 RefJVM.env 4%N (RefJVM.boot 1)))
     = arg_this (fst (after12 RefJVM.env 4%N (RefJVM.boot 1)))
  /\ statics (snd (after13 RefJVM.env 4%N (RefJVM.boot 1)))
     = statics (snd (after12 RefJVM.env 4%N (RefJVM.boot 1)))
  /\ (at_point (fst (after12 RefJVM.env 4%N (RefJVM.boot 1))) <> Line12 ->
      hello (fst (after13 RefJVM.env 4%N (RefJVM.boot 1)))
      = hello (fst (after12 RefJVM.env 4%N (RefJVM.boot 1))))
  /\ (at_point (fst (after12 RefJVM.env 4%N (RefJVM.boot 1))) <> Line13 ->
      logcat (snd (after13 RefJVM.env 4%N (RefJVM.boot 1)))
      = logcat (snd (after12 RefJVM.env 4%N (RefJVM.boot 1))))
  /\ (at_point (fst (after12 RefJVM.env 4%N (RefJVM.boot 1))) <> Line14 ->
      jvm (snd (after13 RefJVM.env 4%N (RefJVM.boot 1)))
      = jvm (snd (after12 RefJVM.env 4%N (RefJVM.boot 1)))
      /\ retval (fst (after13 RefJVM.env 4%N (RefJVM.boot 1)))
         = retval (fst (after12 RefJVM.env 4%N (RefJVM.boot 1)))).
Proof.
  split.
  - vm_compute. reflexivity.
  - apply (X9_statement_footprints RefJVM.state Z
             (after12 RefJVM.env 4%N (RefJVM.boot 1))
             (after13 RefJVM.env 4%N (RefJVM.boot 1))).
    vm_compute. reflexivity.
Defined.
